(** * drawing_board_hook: the Windows plugin registration shim

    The repository's Windows side is a header declaring the plugin class
    [code::CodePlugin] (windows/code_plugin.h) and one translation unit
    defining the C entry point [CodePluginCApiRegisterWithRegistrar]
    (windows/code_plugin_c_api.cpp).

    The entry point is a straight line of three calls that leave the
    translation unit.  It is embedded as a program over those calls; the
    host framework that answers them is a parameter of every statement
    about the entry point. *)

From Stdlib Require Import NArith List.
From stdpp Require Import base option gmap strings list.

Set Implicit Arguments.

(** ** Pointers

    All three pointer types of the entry point are opaque to it: they are
    only passed on.  A pointer is its address; the null pointer is 0. *)

Definition address := N.
Definition nullptr : address := 0%N.

(** [FlutterDesktopPluginRegistrarRef]: pointer to the opaque C struct. *)
Definition FlutterDesktopPluginRegistrarRef := address.
(** [flutter::PluginRegistrarManager *]. *)
Definition PluginRegistrarManager_ptr := address.
(** [flutter::PluginRegistrarWindows *]. *)
Definition PluginRegistrarWindows_ptr := address.

(** ** Calls that leave code_plugin_c_api.cpp

    - [flutter::PluginRegistrarManager::GetInstance()]
    - [manager->GetRegistrar<flutter::PluginRegistrarWindows>(registrar)]
    - [code::CodePlugin::RegisterWithRegistrar(registrar)]
    Each constructor is indexed by the type the call returns. *)

Inductive call : Type -> Type :=
| GetInstance : call PluginRegistrarManager_ptr
| GetRegistrar (manager : PluginRegistrarManager_ptr)
               (registrar : FlutterDesktopPluginRegistrarRef)
    : call PluginRegistrarWindows_ptr
| RegisterWithRegistrar (registrar : PluginRegistrarWindows_ptr) : call unit.

(** A call as it appears in a log, its return type forgotten. *)
Inductive invocation : Type :=
| Invoke {X : Type} (c : call X).

(** ** Programs over calls *)

Inductive prog (R : Type) : Type :=
| Ret (r : R)
| Call {X : Type} (c : call X) (k : X -> prog R).

Arguments Ret {R} r.
Arguments Call {R X} c k.

Fixpoint prog_bind {A B : Type} (k : A -> prog B) (p : prog A) : prog B :=
  match p with
  | Ret a => k a
  | Call c k' => Call c (fun x => prog_bind k (k' x))
  end.

#[global] Instance prog_ret : MRet prog := fun _ r => Ret r.
#[global] Instance prog_mbind : MBind prog := fun _ _ k p => prog_bind k p.

Definition perform {X : Type} (c : call X) : prog X := Call c Ret.

(** ** The entry point (code_plugin_c_api.cpp, lines 7-12)

    The argument of [RegisterWithRegistrar] is evaluated first: the
    manager is fetched, the handle is resolved through it, and the typed
    registrar is handed to the plugin class.  The function is [void]. *)

Definition CodePluginCApiRegisterWithRegistrar
    (registrar : FlutterDesktopPluginRegistrarRef) : prog unit :=
  manager ← perform GetInstance;
  typed ← perform (GetRegistrar manager registrar);
  perform (RegisterWithRegistrar typed).

(** ** Running a program against a host

    A host answers each call in a world [W]: it leaves a world behind and
    either returns a value or fails ([None]: the call threw or crashed).
    [exec] runs a program, logging every call made, and stops at the first
    call that fails. *)

Definition handler (W : Type) : Type :=
  forall X : Type, call X -> W -> W * option X.

Record outcome (W R : Type) : Type := Outcome {
  log : list invocation;
  final : W;
  result : option R
}.

Fixpoint exec {W R : Type} (host : handler W) (p : prog R) (w : W)
    : outcome W R :=
  match p with
  | Ret r => Outcome [] w (Some r)
  | Call c k =>
      match host _ c w with
      | (w', None) => Outcome [Invoke c] w' None
      | (w', Some x) =>
          let o := exec host (k x) w' in
          Outcome (Invoke c :: log o) (final o) (result o)
      end
  end.

(** The manager through which a run resolved its handle: the receiver of
    the first [GetRegistrar] call in the log. *)

Fixpoint manager_used (l : list invocation) : option PluginRegistrarManager_ptr :=
  match l with
  | [] => None
  | Invoke c :: l' =>
      match c with
      | GetRegistrar m _ => Some m
      | _ => manager_used l'
      end
  end.

(** The typed registrars handed to [CodePlugin::RegisterWithRegistrar]. *)

Fixpoint registered (l : list invocation) : list PluginRegistrarWindows_ptr :=
  match l with
  | [] => []
  | Invoke c :: l' =>
      match c with
      | RegisterWithRegistrar r => r :: registered l'
      | _ => registered l'
      end
  end.

(** ** The declarations of the two files

    What the header and the translation unit declare, as data: classes
    with their bases and members, and free functions.  The rules of C++
    the statements below rely on are functions over these declarations. *)

Module Cxx.

Inductive access := Public | Protected | Private.

Inductive special :=
| DefaultConstructor | CopyConstructor | MoveConstructor
| CopyAssignment | MoveAssignment | Destructor.

Inductive member_kind :=
| Special (s : special)
| MemberFunction
| DataMember.

(** How far a declaration goes in the files at hand: no body, [= delete],
    [= default], or a body. *)
Inductive definition := DeclaredOnly | Deleted | Defaulted | HasBody.

Record member := MemberDecl {
  m_name : string;
  m_kind : member_kind;
  m_access : access;
  m_static : bool;
  m_virtual : bool;
  m_override : bool;
  m_definition : definition
}.

Record base := BaseSpec { b_access : access; b_virtual : bool; b_name : string }.

Record class_decl := ClassDecl {
  c_namespace : string;
  c_name : string;
  c_bases : list base;
  c_members : list member
}.

Definition qualified_name (c : class_decl) : string :=
  c_namespace c +:+ "::" +:+ c_name c.

Record function_decl := FunctionDecl {
  f_name : string;
  f_definition : definition
}.

Record variable_decl := VariableDecl { v_name : string }.

Record file := SourceFile {
  file_name : string;
  includes : list string;
  classes : list class_decl;
  functions : list function_decl;
  variables : list variable_decl
}.

#[global] Instance access_eq_dec : EqDecision access.
Proof. solve_decision. Defined.
#[global] Instance special_eq_dec : EqDecision special.
Proof. solve_decision. Defined.
#[global] Instance member_kind_eq_dec : EqDecision member_kind.
Proof. solve_decision. Defined.
#[global] Instance definition_eq_dec : EqDecision definition.
Proof. solve_decision. Defined.

Definition is_public (m : member) : bool := bool_decide (m_access m = Public).
Definition is_special (m : member) (s : special) : bool :=
  bool_decide (m_kind m = Special s).
Definition is_deleted (m : member) : bool :=
  bool_decide (m_definition m = Deleted).

Definition find_member (c : class_decl) (name : string) : option member :=
  List.find (fun m => bool_decide (m_name m = name)) (c_members c).

Definition find_special (c : class_decl) (s : special) : option member :=
  List.find (fun m => is_special m s) (c_members c).

Definition user_declared (c : class_decl) (s : special) : bool :=
  bool_decide (is_Some (find_special c s)).

(** The operations a client can call by name: public member functions
    that are not special members. *)
Definition behavioural_interface (c : class_decl) : list member :=
  List.filter (fun m => is_public m && bool_decide (m_kind m = MemberFunction))
              (c_members c).

Definition data_members (c : class_decl) : list member :=
  List.filter (fun m => bool_decide (m_kind m = DataMember)) (c_members c).

(** The functions the files give a body: free functions, and members
    under their qualified name. *)
Definition defined_in (f : file) : list string :=
  List.map f_name
    (List.filter (fun d => bool_decide (f_definition d = HasBody)) (functions f))
  ++ List.concat (List.map (fun c =>
       List.map (fun m => qualified_name c +:+ "::" +:+ m_name m)
         (List.filter (fun m => bool_decide (m_definition m = HasBody))
                      (c_members c)))
       (classes f)).

(** *** Initialising or assigning from an object of the same class

    The rules of C++17 on the special members a class declares itself;
    what bases and data members add to them is left out.
    - [class.copy.ctor]/8, [class.copy.assign]/4: a move constructor (move
      assignment operator) is declared implicitly only when the class
      declares no copy constructor, no copy assignment operator, no move
      assignment operator (move constructor) and no destructor.
    - [class.copy.ctor]/6, [class.copy.assign]/2: a copy operation the
      class does not declare is declared implicitly, and is deleted when
      the class declares a move constructor or a move assignment operator.
    - [over.match]: an lvalue source selects the copy operation; an rvalue
      source selects the move operation when one is declared, and the copy
      operation otherwise.  Deleted functions take part in the selection.
    - [dcl.fct.def.delete]/2: a call that selects a deleted function is
      ill-formed, as is one that selects an inaccessible function. *)

Inductive value_category := Lvalue | Rvalue.

Inductive selected :=
| UserDeclared (m : member)
| ImplicitlyDeclared (deleted : bool).

Definition implicit_move_constructor (c : class_decl) : bool :=
  negb (user_declared c CopyConstructor || user_declared c CopyAssignment
        || user_declared c MoveAssignment || user_declared c Destructor).

Definition implicit_move_assignment (c : class_decl) : bool :=
  negb (user_declared c CopyConstructor || user_declared c CopyAssignment
        || user_declared c MoveConstructor || user_declared c Destructor).

Definition select (c : class_decl) (copy move : special)
    (implicit_move : bool) (v : value_category) : selected :=
  let by_copy :=
    match find_special c copy with
    | Some m => UserDeclared m
    | None =>
        ImplicitlyDeclared (user_declared c MoveConstructor
                            || user_declared c MoveAssignment)
    end in
  match v with
  | Lvalue => by_copy
  | Rvalue =>
      match find_special c move with
      | Some m => UserDeclared m
      | None => if implicit_move then ImplicitlyDeclared false else by_copy
      end
  end.

Definition well_formed (s : selected) : bool :=
  match s with
  | UserDeclared m => is_public m && negb (is_deleted m)
  | ImplicitlyDeclared deleted => negb deleted
  end.

(** [T b(a)] and [T b(std::move(a))]. *)
Definition constructible_from (c : class_decl) (v : value_category) : bool :=
  well_formed (select c CopyConstructor MoveConstructor
                      (implicit_move_constructor c) v).

(** [b = a] and [b = std::move(a)]. *)
Definition assignable_from (c : class_decl) (v : value_category) : bool :=
  well_formed (select c CopyAssignment MoveAssignment
                      (implicit_move_assignment c) v).

(** *** Destroying an object through a pointer to one of its classes

    A hierarchy with single inheritance is the list of classes from the
    most derived one up (C++17).  [class.dtor]: a destructor is virtual when it
    is declared [virtual] or a base class has a virtual destructor.
    [expr.delete]/3: deleting through a pointer to a proper base is
    undefined unless that base's destructor is virtual; then the
    destructor of the most derived class is called, and it runs the
    destructors of the bases in turn. *)





(** *** What a class takes from a base

    C++17, for a base whose declaration is at hand.
    - [class.derived]/2, [basic.scope.hiding]: the members of the base are
      members of the derived class, except that a name the derived class
      declares hides every base member of that name.  Constructors, the
      destructor and the assignment operators are not taken over under
      their name, and a private member of the base is inaccessible.
    - [class.virtual]/2: a non-static member function of the derived
      class overrides a virtual member function of the base with the same
      name and parameters, with or without the [virtual] or [override]
      keyword.  The declarations carry no parameter lists, so every
      same-named function counts here: the real overriders are among
      them.  [class.dtor]: the destructor of the derived class overrides
      a virtual destructor of the base. *)






End Cxx.

(** ** windows/code_plugin.h and windows/code_plugin_c_api.cpp *)

Module code.
Import Cxx.

(** [class CodePlugin : public flutter::Plugin], lines 11-27.  Every member
    follows the [public:] label; none has a body in the header. *)
Definition CodePlugin : class_decl :=
  ClassDecl "code" "CodePlugin"
    [ BaseSpec Public false "flutter::Plugin" ]
    [ (* static void RegisterWithRegistrar(flutter::PluginRegistrarWindows *registrar) *)
      MemberDecl "RegisterWithRegistrar" MemberFunction Public
                 true false false DeclaredOnly;
      (* CodePlugin() *)
      MemberDecl "CodePlugin" (Special DefaultConstructor) Public
                 false false false DeclaredOnly;
      (* virtual ~CodePlugin() *)
      MemberDecl "~CodePlugin" (Special Destructor) Public
                 false true false DeclaredOnly;
      (* CodePlugin(const CodePlugin&) = delete *)
      MemberDecl "CodePlugin" (Special CopyConstructor) Public
                 false false false Deleted;
      (* CodePlugin& operator=(const CodePlugin&) = delete *)
      MemberDecl "operator=" (Special CopyAssignment) Public
                 false false false Deleted;
      (* void HandleMethodCall(const MethodCall<EncodableValue> &,
                               std::unique_ptr<MethodResult<EncodableValue>>) *)
      MemberDecl "HandleMethodCall" MemberFunction Public
                 false false false DeclaredOnly ].

Definition code_plugin_h : file :=
  SourceFile "windows/code_plugin.h"
    [ "flutter/method_channel.h"; "flutter/plugin_registrar_windows.h"; "memory" ]
    [ CodePlugin ] [] [].

Definition code_plugin_c_api_cpp : file :=
  SourceFile "windows/code_plugin_c_api.cpp"
    [ "include/code/code_plugin_c_api.h"; "flutter/plugin_registrar_windows.h";
      "code_plugin.h" ]
    []
    [ FunctionDecl "CodePluginCApiRegisterWithRegistrar" HasBody ]
    [].

Definition provided_files : list file := [ code_plugin_h; code_plugin_c_api_cpp ].

End code.

(** ** The host and the registration behind the entry point *)

Section Host.

(** [flutter::EncodableValue], a type of the framework. *)
Variable EncodableValue : Type.

(** Modelled from the spec: the framework's [flutter::MethodCall] and
    [flutter::MethodResult], which the header only names.  The host
    "delivers (method name, arguments) pairs and expects a (success value |
    error) result". *)
Record MethodCall : Type := {
  method_name : string;
  arguments : EncodableValue
}.

Inductive MethodResult : Type :=
| Success (value : EncodableValue)
| Error (code message : string).

(** [CodePlugin::HandleMethodCall] (code_plugin.h, lines 24-26) has no body
    in the files: it is a parameter.  The class has no data member, so the
    handler depends on the call alone. *)
Variable HandleMethodCall : MethodCall -> MethodResult.

(** The plugin's channel is "named by convention, not shown". *)
Variable channel_name : string.

(** Modelled from the spec: the host framework.  It holds the process-wide
    registrar manager and the manager's table from registrar handles to
    typed registrars; the channels attached to the running application
    instance, each with the handler behind it; and its plugin registry,
    which owns the plugin objects (one entry per object: the typed
    registrar it was handed to). *)
Record Host : Type := {
  manager : PluginRegistrarManager_ptr;
  registrars : gmap N PluginRegistrarWindows_ptr;
  channels : gmap string (MethodCall -> MethodResult);
  plugins : list PluginRegistrarWindows_ptr
}.


(** Modelled from the spec: the body of [code::CodePlugin::RegisterWithRegistrar],
    declared at code_plugin.h line 13; its definition (windows/code_plugin.cpp)
    is not among the files.  "The plugin registers itself and its channel":
    the channel is attached with the handler that forwards to
    [HandleMethodCall], and the plugin object is handed to the registry. *)
Definition RegisterWithRegistrar_body
    (registrar : PluginRegistrarWindows_ptr) (host : Host) : Host :=
  {| manager := manager host;
     registrars := registrars host;
     channels := <[channel_name := HandleMethodCall]> (channels host);
     plugins := plugins host ++ [registrar] |}.


(** Modelled from the spec: how the host answers the entry point's calls.
    The manager is the one instance the host holds; resolution looks the
    handle up in the manager's table and fails for a handle the host does
    not know; registration runs the body above. *)
Definition host_answers : handler Host :=
  fun X c =>
    match c in call X return Host -> Host * option X with
    | GetInstance => fun host => (host, Some (manager host))
    | GetRegistrar m h => fun host =>
        (host, if bool_decide (m = manager host)
               then registrars host !! h else None)
    | RegisterWithRegistrar r => fun host =>
        (RegisterWithRegistrar_body r host, Some tt)
    end.

End Host.

Arguments host_answers {EncodableValue} HandleMethodCall channel_name X c _.

(** A host that answers every call: the manager sits at address 1, a
    handle resolves to itself, and registration counts the calls. *)
Definition permissive_host : handler nat :=
  fun X c =>
    match c in call X return nat -> nat * option X with
    | GetInstance => fun n => (n, Some 1%N)
    | GetRegistrar _ h => fun n => (n, Some h)
    | RegisterWithRegistrar _ => fun n => (S n, Some tt)
    end.

Arguments permissive_host X c _ : clear implicits.

(** A host of the spec's kind that knows one handle, 7, resolving to the
    typed registrar 70, with no channel attached yet; its handler answers
    a method call with the call's own arguments. *)
Definition echo (c : MethodCall string) : MethodResult string :=
  Success (arguments c).

Definition sample_host : Host string :=
  {| manager := 1%N;
     registrars := {[ 7%N := 70%N ]};
     channels := ∅;
     plugins := [] |}.


(** A host of the spec's kind whose manager resolves two handles, 7 and
    8, to the same typed registrar 70. *)
Definition shared_host : Host string :=
  {| manager := 1%N;
     registrars := {[ 7%N := 70%N; 8%N := 70%N ]};
     channels := ∅;
     plugins := [] |}.



(** * Properties *)

(** ** General facts about running programs *)

Section Exec.

Context {W : Type} (host : handler W).
Arguments host : clear implicits.

(** Running a call and then a continuation. *)
Lemma exec_Call {R X : Type} (c : call X) (k : X -> prog R) (w : W) :
  exec host (Call c k) w =
  match host _ c w with
  | (w', None) => Outcome [Invoke c] w' None
  | (w', Some x) =>
      Outcome (Invoke c :: log (exec host (k x) w'))
              (final (exec host (k x) w'))
              (result (exec host (k x) w'))
  end.
Proof. reflexivity. Qed.

(** The entry point, one call at a time. *)
Lemma exec_entry (h : FlutterDesktopPluginRegistrarRef) (w : W) :
  exec host (CodePluginCApiRegisterWithRegistrar h) w =
  match host _ GetInstance w with
  | (w1, None) => Outcome [Invoke GetInstance] w1 None
  | (w1, Some m) =>
      match host _ (GetRegistrar m h) w1 with
      | (w2, None) =>
          Outcome [Invoke GetInstance; Invoke (GetRegistrar m h)] w2 None
      | (w2, Some r) =>
          Outcome [Invoke GetInstance; Invoke (GetRegistrar m h);
                   Invoke (RegisterWithRegistrar r)]
                  (host _ (RegisterWithRegistrar r) w2).1
                  (host _ (RegisterWithRegistrar r) w2).2
      end
  end.
Proof.
  unfold CodePluginCApiRegisterWithRegistrar, perform, mbind, prog_mbind.
  cbn [prog_bind]. rewrite exec_Call.
  destruct (host _ GetInstance w) as [w1 [m|]]; [|reflexivity].
  rewrite exec_Call.
  destruct (host _ (GetRegistrar m h) w1) as [w2 [r|]]; [|reflexivity].
  rewrite exec_Call.
  destruct (host _ (RegisterWithRegistrar r) w2) as [w3 [[]|]]; reflexivity.
Qed.

End Exec.

(** ** The entry point against any host *)

Section Entry.

Context {W : Type} (host : handler W).
Arguments host : clear implicits.

(** C1.  For every registrar handle, the entry point does two things in
    order and nothing else: it resolves the handle into the typed
    registrar through the registrar manager ([GetInstance], then
    [GetRegistrar] on that manager and the handle as given), and then
    calls [CodePlugin::RegisterWithRegistrar] on the typed registrar that
    the resolution returned.  The log holds exactly these calls, and the
    world and the result the entry point leaves are those the registration
    call left. *)
Theorem entry_resolves_then_registers
    (h : FlutterDesktopPluginRegistrarRef) (w w1 w2 : W)
    (m : PluginRegistrarManager_ptr) (r : PluginRegistrarWindows_ptr) :
  host _ GetInstance w = (w1, Some m) ->
  host _ (GetRegistrar m h) w1 = (w2, Some r) ->
  exec host (CodePluginCApiRegisterWithRegistrar h) w =
  Outcome [ Invoke GetInstance; Invoke (GetRegistrar m h);
            Invoke (RegisterWithRegistrar r) ]
          (host _ (RegisterWithRegistrar r) w2).1
          (host _ (RegisterWithRegistrar r) w2).2.
Proof.
  intros Hinstance Hresolve.
  rewrite exec_entry, Hinstance, Hresolve. reflexivity.
Qed.

(** C3.  The entry point returns no value ([unit]) and has no error
    condition of its own.  For every handle, the null handle included, and
    every host, a run ends in one of two ways.  Either it returns, and
    then it made exactly three calls: [GetInstance], [GetRegistrar] with
    the handle as given, and [RegisterWithRegistrar], invoked once.  Or it
    fails, and then the last call it made is one that the host fails in
    some world.  The statement does not say which manager and registrar
    the calls carry; that is C1. *)
Theorem entry_no_error_of_its_own
    (h : FlutterDesktopPluginRegistrarRef) (w : W) :
  (result (exec host (CodePluginCApiRegisterWithRegistrar h) w) = Some tt /\
   exists m r,
     log (exec host (CodePluginCApiRegisterWithRegistrar h) w) =
       [ Invoke GetInstance; Invoke (GetRegistrar m h);
         Invoke (RegisterWithRegistrar r) ] /\
     registered (log (exec host (CodePluginCApiRegisterWithRegistrar h) w)) = [r])
  \/
  (result (exec host (CodePluginCApiRegisterWithRegistrar h) w) = None /\
   exists X (c : call X) w',
     last (log (exec host (CodePluginCApiRegisterWithRegistrar h) w))
       = Some (Invoke c) /\
     (host X c w').2 = None).
Proof.
  rewrite exec_entry.
  destruct (host _ GetInstance w) as [w1 [m|]] eqn:Hinstance.
  - destruct (host _ (GetRegistrar m h) w1) as [w2 [r|]] eqn:Hresolve.
    + destruct (host _ (RegisterWithRegistrar r) w2) as [w3 [[]|]] eqn:Hregister.
      * left. split; [reflexivity|]. exists m, r. split; reflexivity.
      * right. split; [reflexivity|].
        exists _, (RegisterWithRegistrar r), w2. rewrite Hregister.
        split; reflexivity.
    + right. split; [reflexivity|].
      exists _, (GetRegistrar m h), w1. rewrite Hresolve. split; reflexivity.
  - right. split; [reflexivity|].
    exists _, GetInstance, w. rewrite Hinstance. split; reflexivity.
Qed.

(** C6.  The code has no state of its own: the class declares no data
    member and the two files declare no variable.  The only effect of a
    run is the registration made through the registrar that the framework
    resolved.  For any part of the world that the framework's two
    resolution calls leave alone: either the handle was resolved, and
    then that part was untouched up to the registration, registration was
    invoked once, on the resolved registrar, and the world the run leaves
    is the world that one call left; or a resolution call failed, and
    then nothing was registered and that part is as it was.  So when
    registration leaves that part alone as well, the run does. *)
Theorem entry_only_effect_is_registration {A : Type} (own : W -> A)
    (h : FlutterDesktopPluginRegistrarRef) (w : W) :
  (forall w', own (host _ GetInstance w').1 = own w') ->
  (forall m h' w', own (host _ (GetRegistrar m h') w').1 = own w') ->
  Cxx.data_members code.CodePlugin = [] /\
  List.concat (List.map Cxx.variables code.provided_files) = [] /\
  ((exists m w1 r w2,
      host _ GetInstance w = (w1, Some m) /\
      host _ (GetRegistrar m h) w1 = (w2, Some r) /\
      own w2 = own w /\
      registered (log (exec host (CodePluginCApiRegisterWithRegistrar h) w)) = [r] /\
      final (exec host (CodePluginCApiRegisterWithRegistrar h) w)
        = (host _ (RegisterWithRegistrar r) w2).1)
   \/
   (((host _ GetInstance w).2 = None \/
     exists m w1, host _ GetInstance w = (w1, Some m) /\
                  (host _ (GetRegistrar m h) w1).2 = None) /\
    registered (log (exec host (CodePluginCApiRegisterWithRegistrar h) w)) = [] /\
    own (final (exec host (CodePluginCApiRegisterWithRegistrar h) w)) = own w)) /\
  ((forall r w', own (host _ (RegisterWithRegistrar r) w').1 = own w') ->
   own (final (exec host (CodePluginCApiRegisterWithRegistrar h) w)) = own w).
Proof.
  intros Hinstance Hresolve.
  split; [reflexivity|]. split; [reflexivity|].
  rewrite exec_entry.
  specialize (Hinstance w).
  destruct (host _ GetInstance w) as [w1 [m|]] eqn:Ei; cbn in Hinstance.
  - specialize (Hresolve m h w1).
    destruct (host _ (GetRegistrar m h) w1) as [w2 [r|]] eqn:Er; cbn in Hresolve.
    + assert (Hw2 : own w2 = own w) by (rewrite Hresolve; exact Hinstance).
      split.
      * left. exists m, w1, r, w2.
        split; [reflexivity|]. split; [exact Er|]. split; [exact Hw2|].
        split; reflexivity.
      * intros Hregister. cbn. rewrite Hregister. exact Hw2.
    + split.
      * right. split; [|split].
        -- right. exists m, w1. split; [reflexivity|]. rewrite Er. reflexivity.
        -- reflexivity.
        -- cbn. rewrite Hresolve. exact Hinstance.
      * intros _. cbn. rewrite Hresolve. exact Hinstance.
  - split.
    + right. split; [|split].
      * left. reflexivity.
      * reflexivity.
      * exact Hinstance.
    + intros _. exact Hinstance.
Qed.

(** C9.  Every run of the entry point obtains the manager from
    [PluginRegistrarManager::GetInstance()] and resolves its handle
    through it.  With [GetInstance] answering with the one process-wide
    instance, any two runs, with equal or different handles and from any
    two worlds, resolve through that same manager. *)
Theorem entry_uses_singleton_manager
    (instance : PluginRegistrarManager_ptr)
    (h1 h2 : FlutterDesktopPluginRegistrarRef) (w1 w2 : W) :
  (forall w, (host _ GetInstance w).2 = Some instance) ->
  manager_used (log (exec host (CodePluginCApiRegisterWithRegistrar h1) w1))
    = Some instance /\
  manager_used (log (exec host (CodePluginCApiRegisterWithRegistrar h2) w2))
    = Some instance.
Proof.
  intros Hsingleton.
  assert (Hone : forall h w,
    manager_used (log (exec host (CodePluginCApiRegisterWithRegistrar h) w))
      = Some instance).
  { intros h w. rewrite exec_entry. specialize (Hsingleton w).
    destruct (host _ GetInstance w) as [w' o]. cbn in Hsingleton. subst o.
    destruct (host _ (GetRegistrar instance h) w') as [w'' [r|]]; reflexivity. }
  split; apply Hone.
Qed.

End Entry.

(** ** Registration against the host of the spec *)

Section Registration.

Context {EncodableValue : Type}.
Variable HandleMethodCall : MethodCall EncodableValue -> MethodResult EncodableValue.
Variable channel_name : string.



End Registration.

(** ** The declarations *)

Section Declarations.
Import Cxx code.

(** C4.  [CodePlugin::HandleMethodCall] is declared and nothing more: the
    header gives it no body, and the only function either file defines is
    the entry point.  So for no method call do the files say how it is
    dispatched, how its arguments are checked or how its result is
    encoded. *)
Theorem HandleMethodCall_declared_only :
  m_definition <$> find_member CodePlugin "HandleMethodCall" = Some DeclaredOnly /\
  List.concat (List.map defined_in provided_files)
    = [ "CodePluginCApiRegisterWithRegistrar" ].
Proof. split; reflexivity. Qed.

(** C5.  The operations the class exposes are the static
    [RegisterWithRegistrar] and the instance member [HandleMethodCall];
    every other member is a constructor, the destructor, or a deleted copy
    operation. *)
Theorem CodePlugin_behavioural_interface :
  List.map (fun m => (m_name m, m_static m)) (behavioural_interface CodePlugin)
    = [ ("RegisterWithRegistrar", true); ("HandleMethodCall", false) ] /\
  List.map m_kind
      (List.filter (fun m => negb (bool_decide (m_kind m = MemberFunction)))
                   (c_members CodePlugin))
    = [ Special DefaultConstructor; Special Destructor;
        Special CopyConstructor; Special CopyAssignment ] /\
  List.map m_name (List.filter is_deleted (c_members CodePlugin))
    = [ "CodePlugin"; "operator=" ].
Proof. repeat split; reflexivity. Qed.




(** C8.  The copy constructor and the copy assignment operator are
    deleted, and no move operation takes their place: a plugin object can
    be neither initialised nor assigned from an existing one, be the
    source an lvalue or an rvalue. *)
Theorem CodePlugin_not_copyable (v : value_category) :
  is_deleted <$> find_special CodePlugin CopyConstructor = Some true /\
  is_deleted <$> find_special CodePlugin CopyAssignment = Some true /\
  constructible_from CodePlugin v = false /\
  assignable_from CodePlugin v = false.
Proof. destruct v; repeat split; reflexivity. Qed.


End Declarations.

(** ** The statements at concrete inputs *)

Lemma entry_resolves_then_registers_witness :
  permissive_host _ GetInstance 0 = (0, Some 1%N) /\
  permissive_host _ (GetRegistrar 1%N 7%N) 0 = (0, Some 7%N) /\
  exec permissive_host (CodePluginCApiRegisterWithRegistrar 7%N) 0 =
  Outcome [ Invoke GetInstance; Invoke (GetRegistrar 1%N 7%N);
            Invoke (RegisterWithRegistrar 7%N) ]
          1 (Some tt).
Proof.
  split; [reflexivity|]. split; [reflexivity|].
  apply (@entry_resolves_then_registers nat permissive_host 7%N 0 0 0 1%N 7%N);
    reflexivity.
Defined.

(** The null handle against the sample host, which does not know it: the
    entry point passes it on, the host fails the resolution, and
    registration is never reached. *)
Example entry_null_handle_sample_host :
  exec (host_answers echo "code")
       (CodePluginCApiRegisterWithRegistrar nullptr) sample_host
  = Outcome [ Invoke GetInstance; Invoke (GetRegistrar 1%N nullptr) ]
            sample_host None.
Proof. reflexivity. Qed.

(** The null handle against the host that answers every call. *)
Example entry_null_handle_permissive_host :
  exec permissive_host (CodePluginCApiRegisterWithRegistrar nullptr) 0
  = Outcome [ Invoke GetInstance; Invoke (GetRegistrar 1%N nullptr);
              Invoke (RegisterWithRegistrar nullptr) ]
            1 (Some tt).
Proof. reflexivity. Qed.

Lemma entry_only_effect_is_registration_witness :
  (forall host : Host string,
     (host_answers echo "code" _ GetInstance host).1 = host) /\
  (forall (m : PluginRegistrarManager_ptr) (h' : FlutterDesktopPluginRegistrarRef)
          (host : Host string),
     (host_answers echo "code" _ (GetRegistrar m h') host).1 = host) /\
  Cxx.data_members code.CodePlugin = [] /\
  List.concat (List.map Cxx.variables code.provided_files) = [] /\
  ((exists m w1 r w2,
      host_answers echo "code" _ GetInstance sample_host = (w1, Some m) /\
      host_answers echo "code" _ (GetRegistrar m 7%N) w1 = (w2, Some r) /\
      w2 = sample_host /\
      registered (log (exec (host_answers echo "code")
                            (CodePluginCApiRegisterWithRegistrar 7%N) sample_host))
        = [r] /\
      final (exec (host_answers echo "code")
                  (CodePluginCApiRegisterWithRegistrar 7%N) sample_host)
        = (host_answers echo "code" _ (RegisterWithRegistrar r) w2).1)
   \/
   (((host_answers echo "code" _ GetInstance sample_host).2 = None \/
     exists m w1,
       host_answers echo "code" _ GetInstance sample_host = (w1, Some m) /\
       (host_answers echo "code" _ (GetRegistrar m 7%N) w1).2 = None) /\
    registered (log (exec (host_answers echo "code")
                          (CodePluginCApiRegisterWithRegistrar 7%N) sample_host))
      = [] /\
    final (exec (host_answers echo "code")
                (CodePluginCApiRegisterWithRegistrar 7%N) sample_host)
      = sample_host)) /\
  ((forall (r : PluginRegistrarWindows_ptr) (host : Host string),
      (host_answers echo "code" _ (RegisterWithRegistrar r) host).1 = host) ->
   final (exec (host_answers echo "code")
               (CodePluginCApiRegisterWithRegistrar 7%N) sample_host)
     = sample_host).
Proof.
  split; [intros host; reflexivity|].
  split; [intros m h' host; reflexivity|].
  apply (@entry_only_effect_is_registration (Host string)
           (host_answers echo "code") (Host string)
           (fun host => host) 7%N sample_host).
  - intros host. reflexivity.
  - intros m h' host. reflexivity.
Defined.

Lemma entry_uses_singleton_manager_witness :
  (forall n : nat, (permissive_host _ GetInstance n).2 = Some 1%N) /\
  manager_used (log (exec permissive_host
                          (CodePluginCApiRegisterWithRegistrar 7%N) 0))
    = Some 1%N /\
  manager_used (log (exec permissive_host
                          (CodePluginCApiRegisterWithRegistrar nullptr) 1))
    = Some 1%N.
Proof.
  split; [reflexivity|].
  apply (@entry_uses_singleton_manager nat permissive_host 1%N 7%N nullptr 0 1).
  reflexivity.
Defined.






(** ** Further properties of the entry point *)

Section EntryFurther.

Context {W : Type} (host : handler W).
Arguments host : clear implicits.

(** X1.  Registration is reached only through a successful resolution of
    the very handle the entry point was given: a typed registrar is handed
    to [CodePlugin::RegisterWithRegistrar] exactly when [GetInstance]
    returned a manager and that manager's [GetRegistrar] returned this
    registrar for the handle.  In particular, when either resolution call
    fails, registration is not invoked; and no run invokes it twice. *)
Theorem registration_only_after_resolution
    (h : FlutterDesktopPluginRegistrarRef) (w : W)
    (r : PluginRegistrarWindows_ptr) :
  (registered (log (exec host (CodePluginCApiRegisterWithRegistrar h) w)) = [r]
   <->
   exists m w1 w2,
     host _ GetInstance w = (w1, Some m) /\
     host _ (GetRegistrar m h) w1 = (w2, Some r)) /\
  (registered (log (exec host (CodePluginCApiRegisterWithRegistrar h) w)) = [] \/
   exists r',
     registered (log (exec host (CodePluginCApiRegisterWithRegistrar h) w)) = [r']).
Proof.
  rewrite exec_entry.
  destruct (host _ GetInstance w) as [w1 [m|]] eqn:Hinstance.
  - destruct (host _ (GetRegistrar m h) w1) as [w2 [r0|]] eqn:Hresolve.
    + split.
      * split.
        -- intros Hreg. cbn in Hreg. injection Hreg as ->.
           exists m, w1, w2. split; [reflexivity | exact Hresolve].
        -- intros (m' & w1' & w2' & Hi & Hr).
           injection Hi as <- <-. rewrite Hresolve in Hr.
           injection Hr as _ ->. reflexivity.
      * right. exists r0. reflexivity.
    + split.
      * split.
        -- intros Hreg. cbn in Hreg. discriminate Hreg.
        -- intros (m' & w1' & w2' & Hi & Hr).
           injection Hi as <- <-. rewrite Hresolve in Hr. discriminate Hr.
      * left. reflexivity.
  - split.
    + split.
      * intros Hreg. cbn in Hreg. discriminate Hreg.
      * intros (m' & w1' & w2' & Hi & _). discriminate Hi.
    + left. reflexivity.
Qed.

(** X2.  The handle plays no part before [GetRegistrar]: for every host
    and every world, the first call of a run is [GetInstance], and two
    runs from the same world resolve through the same manager whatever
    their handles, with no assumption on how the host answers. *)
Theorem manager_independent_of_handle
    (h1 h2 : FlutterDesktopPluginRegistrarRef) (w : W) :
  head (log (exec host (CodePluginCApiRegisterWithRegistrar h1) w))
    = Some (Invoke GetInstance) /\
  manager_used (log (exec host (CodePluginCApiRegisterWithRegistrar h1) w))
    = manager_used (log (exec host (CodePluginCApiRegisterWithRegistrar h2) w)).
Proof.
  rewrite !exec_entry.
  destruct (host _ GetInstance w) as [w1 [m|]].
  - destruct (host _ (GetRegistrar m h1) w1) as [w2 [r1|]];
      destruct (host _ (GetRegistrar m h2) w1) as [w2' [r2|]];
      split; reflexivity.
  - split; reflexivity.
Qed.

(** X3.  The handle is opaque to the entry point: it is used as the
    argument of [GetRegistrar] and for nothing else.  Two handles that the
    manager resolves alike, to the same typed registrar and the same
    world, lead to the same registration, the same final world and the
    same result. *)
Theorem handle_is_opaque
    (h1 h2 : FlutterDesktopPluginRegistrarRef) (w w1 : W)
    (m : PluginRegistrarManager_ptr) :
  host _ GetInstance w = (w1, Some m) ->
  host _ (GetRegistrar m h1) w1 = host _ (GetRegistrar m h2) w1 ->
  registered (log (exec host (CodePluginCApiRegisterWithRegistrar h1) w))
    = registered (log (exec host (CodePluginCApiRegisterWithRegistrar h2) w)) /\
  final (exec host (CodePluginCApiRegisterWithRegistrar h1) w)
    = final (exec host (CodePluginCApiRegisterWithRegistrar h2) w) /\
  result (exec host (CodePluginCApiRegisterWithRegistrar h1) w)
    = result (exec host (CodePluginCApiRegisterWithRegistrar h2) w).
Proof.
  intros Hinstance Halike.
  rewrite !exec_entry, Hinstance, Halike.
  destruct (host _ (GetRegistrar m h2) w1) as [w2 [r|]]; repeat split; reflexivity.
Qed.

End EntryFurther.

Lemma handle_is_opaque_witness :
  host_answers echo "code" _ GetInstance shared_host = (shared_host, Some 1%N) /\
  host_answers echo "code" _ (GetRegistrar 1%N 7%N) shared_host
    = host_answers echo "code" _ (GetRegistrar 1%N 8%N) shared_host /\
  registered (log (exec (host_answers echo "code")
                        (CodePluginCApiRegisterWithRegistrar 7%N) shared_host))
    = registered (log (exec (host_answers echo "code")
                            (CodePluginCApiRegisterWithRegistrar 8%N) shared_host)) /\
  final (exec (host_answers echo "code")
              (CodePluginCApiRegisterWithRegistrar 7%N) shared_host)
    = final (exec (host_answers echo "code")
                  (CodePluginCApiRegisterWithRegistrar 8%N) shared_host) /\
  result (exec (host_answers echo "code")
               (CodePluginCApiRegisterWithRegistrar 7%N) shared_host)
    = result (exec (host_answers echo "code")
                   (CodePluginCApiRegisterWithRegistrar 8%N) shared_host).
Proof.
  split; [reflexivity|]. split; [reflexivity|].
  apply (@handle_is_opaque (Host string) (host_answers echo "code")
                           7%N 8%N shared_host shared_host 1%N);
    reflexivity.
Defined.
